(** * Build metadata of libcblite 3.0.1: [include/cbl/CBL_Edition.h]

    The header is a sequence of preprocessing directives.  Each directive is
    embedded as a transformer of the preprocessor's state (the table of
    macro definitions of the translation unit), the header as their
    composition, and a read of a constant as the expansion of its macro
    name in the state that the header leaves behind. *)

From Stdlib Require Import ZArith Lia Ascii String List Bool.
From stdpp Require Import gmap strings.

Local Open Scope string_scope.

(** ** The preprocessor *)

Module CPP.

(** Preprocessing tokens (C11 6.4).  A string literal carries the characters
    between its quotes, a pp-number its spelling. *)
Inductive pp_token :=
  | StringLiteral (chars : string)
  | PPNumber (spelling : string)
  | Identifier (name : string)
  | Punctuator (spelling : string).

#[global] Instance pp_token_eq_dec : EqDecision pp_token.
Proof. solve_decision. Defined.

(** A macro definition: object-like when [params] is [None]. *)
Record macro := Macro {
  params : option (list string);
  replacement : list pp_token
}.

#[global] Instance macro_eq_dec : EqDecision macro.
Proof. solve_decision. Defined.

Definition object_like (body : list pp_token) : macro :=
  {| params := None; replacement := body |}.

(** C11 6.10.3p2: a macro may be defined again only by an identical
    definition; anything else is diagnosed. *)
Inductive diagnostic :=
  | MacroRedefined (name : string).

(** State of the preprocessor inside one translation unit.  [defines] is the
    history of the [#define] directives that were executed (latest first);
    it is not consulted by any directive. *)
Record pp_state := PPState {
  macros : gmap string macro;
  defines : list string;
  diagnostics : list diagnostic
}.

(** The state in which translation starts when nothing is predefined. *)
Definition initial : pp_state :=
  {| macros := ∅; defines := []; diagnostics := [] |}.

(** [defined NAME], the test of [#ifdef], [#ifndef] and [#if defined]. *)
Definition defined (name : string) (st : pp_state) : bool :=
  bool_decide (is_Some (macros st !! name)).

(** [#define name body].  The new definition always takes effect, as in
    GCC, Clang and MSVC; replacing a different definition is diagnosed. *)
Definition define (name : string) (body : list pp_token) (st : pp_state)
  : pp_state :=
  {| macros := <[name := object_like body]> (macros st);
     defines := name :: defines st;
     diagnostics :=
       match macros st !! name with
       | Some old =>
           if decide (old = object_like body) then diagnostics st
           else MacroRedefined name :: diagnostics st
       | None => diagnostics st
       end |}.

(** [#ifndef name] group [#endif]. *)
Definition ifndef (name : string) (group : pp_state -> pp_state)
    (st : pp_state) : pp_state :=
  if defined name st then st else group st.

(** *** Integer constants (C11 6.4.4.1) *)

Definition is_digit (c : ascii) : bool :=
  let n := N_of_ascii c in ((48 <=? n) && (n <=? 57))%N.

Definition is_octal_digit (c : ascii) : bool :=
  let n := N_of_ascii c in ((48 <=? n) && (n <=? 55))%N.

Definition digit_value (c : ascii) : Z := (Z.of_N (N_of_ascii c) - 48)%Z.

(** Value of a run of digits in the given base, most significant first,
    continuing from [acc]. *)
Fixpoint digits_from (base : Z) (ok : ascii -> bool) (acc : Z) (s : string)
  : option Z :=
  match s with
  | EmptyString => Some acc
  | String c s' =>
      if ok c then digits_from base ok (base * acc + digit_value c)%Z s'
      else None
  end.

(** The value of an unsuffixed decimal or octal constant.  A spelling that
    starts with [0] is octal; hexadecimal and suffixed constants do not
    occur in the header and are not given a value. *)
Definition integer_constant (spelling : string) : option Z :=
  match spelling with
  | EmptyString => None
  | String c rest =>
      if Ascii.eqb c "0" then digits_from 8 is_octal_digit 0 rest
      else digits_from 10 is_digit 0 spelling
  end.

(** Largest value of type [int] (32 bits). *)
Definition INT_MAX : Z := 2147483647.

(** *** Use of a macro *)

(** What an occurrence of the identifier [name] is replaced by.  Only an
    object-like macro is replaced at a bare occurrence of its name. *)
Definition expansion (name : string) (st : pp_state)
  : option (list pp_token) :=
  match macros st !! name with
  | Some {| params := None; replacement := body |} => Some body
  | _ => None
  end.

(** The string denoted by [name] where a string literal is expected. *)
Definition read_string (name : string) (st : pp_state) : option string :=
  match expansion name st with
  | Some [StringLiteral s] => Some s
  | _ => None
  end.

(** The integer denoted by [name] where an integer constant is expected. *)
Definition read_integer (name : string) (st : pp_state) : option Z :=
  match expansion name st with
  | Some [PPNumber n] => integer_constant n
  | _ => None
  end.

End CPP.

Import CPP.

(** ** The header *)

(**
<<
#ifndef COUCHBASE_ENTERPRISE
#define COUCHBASE_ENTERPRISE
#endif

#define CBLITE_VERSION "3.0.1"
#define CBLITE_VERSION_NUMBER 3000001
#define CBLITE_BUILD_NUMBER 7
#define CBLITE_SOURCE_ID "2022-03-10T16:25:06 988a7ec+3da8078"
>>
*)
Definition CBL_Edition_h (st : pp_state) : pp_state :=
  let st := ifndef "COUCHBASE_ENTERPRISE"
              (define "COUCHBASE_ENTERPRISE" []) st in
  let st := define "CBLITE_VERSION" [StringLiteral "3.0.1"] st in
  let st := define "CBLITE_VERSION_NUMBER" [PPNumber "3000001"] st in
  let st := define "CBLITE_BUILD_NUMBER" [PPNumber "7"] st in
  define "CBLITE_SOURCE_ID"
    [StringLiteral "2022-03-10T16:25:06 988a7ec+3da8078"] st.

(** The five reads that the header offers to the code that includes it. *)
Definition read_EditionFlag (st : pp_state) : bool :=
  defined "COUCHBASE_ENTERPRISE" st.
Definition read_VersionString : pp_state -> option string :=
  read_string "CBLITE_VERSION".
Definition read_VersionNumber : pp_state -> option Z :=
  read_integer "CBLITE_VERSION_NUMBER".
Definition read_BuildNumber : pp_state -> option Z :=
  read_integer "CBLITE_BUILD_NUMBER".
Definition read_SourceID : pp_state -> option string :=
  read_string "CBLITE_SOURCE_ID".

(** How many [#define] directives for [name] have been executed. *)
Definition times_defined (name : string) (st : pp_state) : nat :=
  count_occ string_dec (defines st) name.

(** [#define name body] is accepted in silence: [name] is free, or already
    stands for the same replacement list. *)
Definition compatible (name : string) (body : list pp_token) (st : pp_state)
  : Prop :=
  macros st !! name = None \/ macros st !! name = Some (object_like body).

(** The build metadata record, read field by field. *)
Record build_metadata := BuildMetadata {
  EditionFlag : bool;
  VersionString : string;
  VersionNumber : Z;
  BuildNumber : Z;
  SourceID : string
}.

Definition read_metadata (st : pp_state) : option build_metadata :=
  match read_VersionString st, read_VersionNumber st,
        read_BuildNumber st, read_SourceID st with
  | Some vs, Some vn, Some bn, Some sid =>
      Some {| EditionFlag := read_EditionFlag st; VersionString := vs;
              VersionNumber := vn; BuildNumber := bn; SourceID := sid |}
  | _, _, _, _ => None
  end.

(** The values written in the header. *)
Definition shipped : build_metadata :=
  {| EditionFlag := true;
     VersionString := "3.0.1";
     VersionNumber := 3000001;
     BuildNumber := 7;
     SourceID := "2022-03-10T16:25:06 988a7ec+3da8078" |}.

(** One read operation per field, with the value it yields. *)
Inductive field :=
  | FEditionFlag | FVersionString | FVersionNumber | FBuildNumber | FSourceID.

Inductive value :=
  | VBool (b : bool)
  | VText (s : string)
  | VInt (z : Z).

Definition read (f : field) (st : pp_state) : option value :=
  match f with
  | FEditionFlag => Some (VBool (read_EditionFlag st))
  | FVersionString => VText <$> read_VersionString st
  | FVersionNumber => VInt <$> read_VersionNumber st
  | FBuildNumber => VInt <$> read_BuildNumber st
  | FSourceID => VText <$> read_SourceID st
  end.

Definition field_of (f : field) (r : build_metadata) : value :=
  match f with
  | FEditionFlag => VBool (EditionFlag r)
  | FVersionString => VText (VersionString r)
  | FVersionNumber => VInt (VersionNumber r)
  | FBuildNumber => VInt (BuildNumber r)
  | FSourceID => VText (SourceID r)
  end.

(** A client that performs the reads [fs] one after the other. *)
Definition read_all (fs : list field) (st : pp_state) : list (option value) :=
  map (fun f => read f st) fs.

(** The header with another text stamped in as source identifier; the
    header itself is the instance at the text it carries (see
    [CBL_Edition_h_stamped_shipped]). *)
Definition CBL_Edition_h_stamped (source_id : string) (st : pp_state)
  : pp_state :=
  let st := ifndef "COUCHBASE_ENTERPRISE"
              (define "COUCHBASE_ENTERPRISE" []) st in
  let st := define "CBLITE_VERSION" [StringLiteral "3.0.1"] st in
  let st := define "CBLITE_VERSION_NUMBER" [PPNumber "3000001"] st in
  let st := define "CBLITE_BUILD_NUMBER" [PPNumber "7"] st in
  define "CBLITE_SOURCE_ID" [StringLiteral source_id] st.

(** ** The vocabulary of the specification *)

Module Spec.

(** A version: major, minor and patch. *)
Definition version : Type := Z * Z * Z.

(** The text before the first occurrence of [sep], and the text after it
    when there is one. *)
Fixpoint break_at (sep : ascii) (s : string) : string * option string :=
  match s with
  | EmptyString => (EmptyString, None)
  | String c s' =>
      if Ascii.eqb c sep then (EmptyString, Some s')
      else let '(a, r) := break_at sep s' in (String c a, r)
  end.

(** Every character is a decimal digit. *)
Fixpoint all_digits (s : string) : bool :=
  match s with
  | EmptyString => true
  | String c s' => is_digit c && all_digits s'
  end.

(** A non-empty run of decimal digits, read in base ten. *)
Definition decimal (s : string) : option Z :=
  match s with
  | EmptyString => None
  | _ => digits_from 10 is_digit 0 s
  end.

(** The parse of a version string that the spec speaks of: "three
    non-negative integers separated by '.'", each read in base ten. *)
Definition parse_version (s : string) : option version :=
  match break_at "." s with
  | (a, Some r) =>
      match break_at "." r with
      | (b, Some c) =>
          match decimal a, decimal b, decimal c with
          | Some major, Some minor, Some patch => Some (major, minor, patch)
          | _, _, _ => None
          end
      | (_, None) => None
      end
  | (_, None) => None
  end.

(** Regular expressions, as far as the pattern of the spec needs them. *)
Inductive regex :=
  | Digit
  | Char (c : ascii)
  | Cat (r1 r2 : regex)
  | Plus (r : regex).

(** [matches r s]: the whole of [s] is matched by [r]. *)
Inductive matches : regex -> string -> Prop :=
  | matches_digit c :
      is_digit c = true -> matches Digit (String c EmptyString)
  | matches_char c :
      matches (Char c) (String c EmptyString)
  | matches_cat r1 r2 s1 s2 :
      matches r1 s1 -> matches r2 s2 -> matches (Cat r1 r2) (s1 +:+ s2)
  | matches_plus_one r s :
      matches r s -> matches (Plus r) s
  | matches_plus_more r s1 s2 :
      matches r s1 -> matches (Plus r) s2 -> matches (Plus r) (s1 +:+ s2).

(** The pattern of the spec, [^\d+\.\d+\.\d+$]. *)
Definition version_pattern : regex :=
  Cat (Plus Digit)
    (Cat (Char ".") (Cat (Plus Digit) (Cat (Char ".") (Plus Digit)))).

(** Modelled from the spec: the encoding of a version as
    [major*1_000_000 + minor*1_000 + patch].  The header carries only the
    value of the encoding for 3.0.1; the function that computes it is not
    part of the header. *)
Definition encode (v : version) : Z :=
  let '(major, minor, patch) := v in
  (major * 1000000 + minor * 1000 + patch)%Z.

(** The decoding [(n / 1_000_000, (n / 1_000) % 1_000, n % 1_000)]. *)
Definition decode (n : Z) : version :=
  ((n / 1000000)%Z, ((n / 1000) mod 1000)%Z, (n mod 1000)%Z).

(** The version number that a version string determines. *)
Definition version_number_of (s : string) : option Z :=
  encode <$> parse_version s.

(** Every component is below 1000 (and not negative). *)
Definition below_1000 (v : version) : Prop :=
  let '(major, minor, patch) := v in
  (0 <= major < 1000 /\ 0 <= minor < 1000 /\ 0 <= patch < 1000)%Z.

(** Order of versions: by major, then minor, then patch. *)
Definition version_le (v1 v2 : version) : Prop :=
  let '(major1, minor1, patch1) := v1 in
  let '(major2, minor2, patch2) := v2 in
  (major1 < major2
   \/ (major1 = major2
       /\ (minor1 < minor2 \/ (minor1 = minor2 /\ patch1 <= patch2))))%Z.

(** Comparison of strings character by character, as [strcmp] does. *)
Fixpoint string_compare (s1 s2 : string) : comparison :=
  match s1, s2 with
  | EmptyString, EmptyString => Eq
  | EmptyString, String _ _ => Lt
  | String _ _, EmptyString => Gt
  | String c1 r1, String c2 r2 =>
      match (N_of_ascii c1 ?= N_of_ascii c2)%N with
      | Eq => string_compare r1 r2
      | o => o
      end
  end.

End Spec.

Import Spec.

(** ** The header among other directives *)

(** The names that the header defines. *)
Definition header_names : list string :=
  ["COUCHBASE_ENTERPRISE"; "CBLITE_VERSION"; "CBLITE_VERSION_NUMBER";
   "CBLITE_BUILD_NUMBER"; "CBLITE_SOURCE_ID"].

(** The four definitions that the header makes without a guard. *)
Definition header_constants : gmap string macro :=
  <["CBLITE_SOURCE_ID" :=
      object_like [StringLiteral "2022-03-10T16:25:06 988a7ec+3da8078"]]>
    (<["CBLITE_BUILD_NUMBER" := object_like [PPNumber "7"]]>
      (<["CBLITE_VERSION_NUMBER" := object_like [PPNumber "3000001"]]>
        (<["CBLITE_VERSION" := object_like [StringLiteral "3.0.1"]]> ∅))).

(** [name] stands for something else than the object-like macro [body]. *)
Definition conflicts (name : string) (body : list pp_token) (st : pp_state)
  : bool :=
  match macros st !! name with
  | Some old => bool_decide (old <> object_like body)
  | None => false
  end.

(** What [#define name body] adds to the diagnostics. *)
Definition redefinition (name : string) (body : list pp_token)
    (st : pp_state) : list diagnostic :=
  if conflicts name body st then [MacroRedefined name] else [].

(** The header included [n] times in a row. *)
Definition include_times (n : nat) (st : pp_state) : pp_state :=
  Nat.iter n CBL_Edition_h st.

(** ** The state that the header leaves behind *)

Section HeaderState.

Variable st : pp_state.

Lemma lookup_define_eq name body :
  macros (define name body st) !! name = Some (object_like body).
Proof. cbn. apply lookup_insert_eq. Qed.

Lemma lookup_define_ne name body other :
  name <> other -> macros (define name body st) !! other = macros st !! other.
Proof. intros Hne. cbn. by apply lookup_insert_ne. Qed.

Lemma defined_define name body : defined name (define name body st) = true.
Proof.
  unfold defined. rewrite lookup_define_eq. apply bool_decide_eq_true. eauto.
Qed.

Lemma defined_ifndef name group :
  defined name (group st) = true -> defined name (ifndef name group st) = true.
Proof. unfold ifndef. destruct (defined name st) eqn:E; auto. Qed.

End HeaderState.

(** Looks a macro name up in the table that a run of [#define]s leaves. *)
Ltac header_lookup :=
  cbv zeta;
  repeat (rewrite lookup_define_ne by discriminate);
  try apply lookup_define_eq.

Section Header.

Variable source_id : string.
Variable st : pp_state.

Let st' := CBL_Edition_h_stamped source_id st.

Lemma lookup_COUCHBASE_ENTERPRISE :
  macros st' !! "COUCHBASE_ENTERPRISE" =
  if defined "COUCHBASE_ENTERPRISE" st
  then macros st !! "COUCHBASE_ENTERPRISE"
  else Some (object_like []).
Proof.
  subst st'. unfold CBL_Edition_h_stamped. header_lookup.
  unfold ifndef. destruct (defined _ st); [reflexivity|].
  apply lookup_define_eq.
Qed.

Lemma lookup_CBLITE_VERSION :
  macros st' !! "CBLITE_VERSION" = Some (object_like [StringLiteral "3.0.1"]).
Proof. subst st'. unfold CBL_Edition_h_stamped. header_lookup. Qed.

Lemma lookup_CBLITE_VERSION_NUMBER :
  macros st' !! "CBLITE_VERSION_NUMBER" =
  Some (object_like [PPNumber "3000001"]).
Proof. subst st'. unfold CBL_Edition_h_stamped. header_lookup. Qed.

Lemma lookup_CBLITE_BUILD_NUMBER :
  macros st' !! "CBLITE_BUILD_NUMBER" = Some (object_like [PPNumber "7"]).
Proof. subst st'. unfold CBL_Edition_h_stamped. header_lookup. Qed.

Lemma lookup_CBLITE_SOURCE_ID :
  macros st' !! "CBLITE_SOURCE_ID" =
  Some (object_like [StringLiteral source_id]).
Proof. subst st'. unfold CBL_Edition_h_stamped. header_lookup. Qed.

(** Names that the header does not mention keep their definition. *)
Lemma lookup_other name :
  name ∉ ["COUCHBASE_ENTERPRISE"; "CBLITE_VERSION"; "CBLITE_VERSION_NUMBER";
          "CBLITE_BUILD_NUMBER"; "CBLITE_SOURCE_ID"] ->
  macros st' !! name = macros st !! name.
Proof.
  intros Hname. subst st'. unfold CBL_Edition_h_stamped. cbv zeta.
  rewrite !lookup_define_ne by (intros <-; apply Hname; set_solver).
  unfold ifndef. destruct (defined _ st); [reflexivity|].
  apply lookup_define_ne. intros <-. apply Hname. set_solver.
Qed.

Lemma stamped_EditionFlag : read_EditionFlag st' = true.
Proof.
  unfold read_EditionFlag, defined at 1.
  rewrite lookup_COUCHBASE_ENTERPRISE.
  apply bool_decide_eq_true.
  destruct (defined _ st) eqn:E; [|eauto].
  unfold defined in E. by apply bool_decide_eq_true in E.
Qed.

Lemma stamped_VersionString : read_VersionString st' = Some "3.0.1".
Proof.
  unfold read_VersionString, read_string, expansion.
  by rewrite lookup_CBLITE_VERSION.
Qed.

Lemma stamped_VersionNumber : read_VersionNumber st' = Some 3000001%Z.
Proof.
  unfold read_VersionNumber, read_integer, expansion.
  by rewrite lookup_CBLITE_VERSION_NUMBER.
Qed.

Lemma stamped_BuildNumber : read_BuildNumber st' = Some 7%Z.
Proof.
  unfold read_BuildNumber, read_integer, expansion.
  by rewrite lookup_CBLITE_BUILD_NUMBER.
Qed.

Lemma stamped_SourceID : read_SourceID st' = Some source_id.
Proof.
  unfold read_SourceID, read_string, expansion.
  by rewrite lookup_CBLITE_SOURCE_ID.
Qed.

End Header.

Lemma CBL_Edition_h_stamped_shipped :
  CBL_Edition_h = CBL_Edition_h_stamped "2022-03-10T16:25:06 988a7ec+3da8078".
Proof. reflexivity. Qed.

Lemma CBL_Edition_h_metadata st : read_metadata (CBL_Edition_h st) = Some shipped.
Proof.
  rewrite CBL_Edition_h_stamped_shipped. unfold read_metadata.
  rewrite stamped_VersionString, stamped_VersionNumber, stamped_BuildNumber,
    stamped_SourceID, stamped_EditionFlag.
  reflexivity.
Qed.

Lemma CBL_Edition_h_read f st :
  read f (CBL_Edition_h st) = Some (field_of f shipped).
Proof.
  rewrite CBL_Edition_h_stamped_shipped.
  destruct f; unfold read.
  - by rewrite stamped_EditionFlag.
  - by rewrite stamped_VersionString.
  - by rewrite stamped_VersionNumber.
  - by rewrite stamped_BuildNumber.
  - by rewrite stamped_SourceID.
Qed.

(** ** Diagnostics and repeated inclusion *)

Lemma diagnostics_define name body st :
  compatible name body st ->
  diagnostics (define name body st) = diagnostics st.
Proof.
  intros [H|H]; cbn; rewrite H; [reflexivity|].
  destruct (decide _); [reflexivity|contradiction].
Qed.

Lemma compatible_define_ne name body other body' st :
  other <> name ->
  compatible name body st -> compatible name body (define other body' st).
Proof.
  intros Hne. unfold compatible. by rewrite lookup_define_ne.
Qed.

Lemma compatible_ifndef_ne name body other group st :
  (forall s, macros (group s) !! name = macros s !! name) ->
  compatible name body st -> compatible name body (ifndef other group st).
Proof.
  intros Hg. unfold compatible, ifndef.
  destruct (defined other st); [done|]. by rewrite Hg.
Qed.

Lemma diagnostics_ifndef_define name st :
  diagnostics (ifndef name (define name []) st) = diagnostics st.
Proof.
  unfold ifndef, defined.
  destruct (bool_decide _) eqn:E; [reflexivity|].
  apply diagnostics_define. left.
  apply bool_decide_eq_false in E.
  destruct (macros st !! name) eqn:L; [|reflexivity].
  exfalso. apply E. eauto.
Qed.

(** The header is accepted without a diagnostic wherever its four constants
    are free or already defined as the header defines them. *)
Lemma CBL_Edition_h_diagnostics st :
  compatible "CBLITE_VERSION" [StringLiteral "3.0.1"] st ->
  compatible "CBLITE_VERSION_NUMBER" [PPNumber "3000001"] st ->
  compatible "CBLITE_BUILD_NUMBER" [PPNumber "7"] st ->
  compatible "CBLITE_SOURCE_ID"
    [StringLiteral "2022-03-10T16:25:06 988a7ec+3da8078"] st ->
  diagnostics (CBL_Edition_h st) = diagnostics st.
Proof.
  intros Hv Hn Hb Hs. unfold CBL_Edition_h. cbv zeta.
  rewrite !diagnostics_define.
  - apply diagnostics_ifndef_define.
  - apply compatible_ifndef_ne; [|assumption].
    intros s. by apply lookup_define_ne.
  - apply compatible_define_ne; [discriminate|].
    apply compatible_ifndef_ne; [|assumption].
    intros s. by apply lookup_define_ne.
  - do 2 (apply compatible_define_ne; [discriminate|]).
    apply compatible_ifndef_ne; [|assumption].
    intros s. by apply lookup_define_ne.
  - do 3 (apply compatible_define_ne; [discriminate|]).
    apply compatible_ifndef_ne; [|assumption].
    intros s. by apply lookup_define_ne.
Qed.

Lemma CBL_Edition_h_diagnostics_initial :
  diagnostics (CBL_Edition_h initial) = [].
Proof. apply CBL_Edition_h_diagnostics; by left. Qed.

(** Including the header a second time changes no definition and raises
    no diagnostic: the header needs no include guard. *)
Lemma CBL_Edition_h_twice_macros st :
  macros (CBL_Edition_h (CBL_Edition_h st)) = macros (CBL_Edition_h st).
Proof.
  rewrite CBL_Edition_h_stamped_shipped.
  apply map_eq. intros name.
  destruct (decide (name ∈ ["COUCHBASE_ENTERPRISE"; "CBLITE_VERSION";
    "CBLITE_VERSION_NUMBER"; "CBLITE_BUILD_NUMBER"; "CBLITE_SOURCE_ID"]))
    as [Hin|Hout].
  - repeat (apply elem_of_cons in Hin as [->|Hin]).
    + rewrite lookup_COUCHBASE_ENTERPRISE.
      fold (read_EditionFlag (CBL_Edition_h_stamped
        "2022-03-10T16:25:06 988a7ec+3da8078" st)).
      by rewrite stamped_EditionFlag.
    + by rewrite !lookup_CBLITE_VERSION.
    + by rewrite !lookup_CBLITE_VERSION_NUMBER.
    + by rewrite !lookup_CBLITE_BUILD_NUMBER.
    + by rewrite !lookup_CBLITE_SOURCE_ID.
    + by apply elem_of_nil in Hin.
  - by rewrite lookup_other.
Qed.

Lemma CBL_Edition_h_twice_diagnostics st :
  diagnostics (CBL_Edition_h (CBL_Edition_h st)) =
  diagnostics (CBL_Edition_h st).
Proof.
  apply CBL_Edition_h_diagnostics; right;
    rewrite CBL_Edition_h_stamped_shipped.
  - apply lookup_CBLITE_VERSION.
  - apply lookup_CBLITE_VERSION_NUMBER.
  - apply lookup_CBLITE_BUILD_NUMBER.
  - apply lookup_CBLITE_SOURCE_ID.
Qed.

(** ** The history of [#define] directives *)

Lemma times_defined_define name other body st :
  times_defined name (define other body st) =
  (times_defined name st + if decide (other = name) then 1 else 0)%nat.
Proof.
  unfold times_defined. cbn [defines define].
  destruct (decide (other = name)) as [->|Hne].
  - rewrite count_occ_cons_eq by reflexivity. lia.
  - rewrite count_occ_cons_neq by assumption. lia.
Qed.

Lemma times_defined_CBL_Edition_h st :
  times_defined "COUCHBASE_ENTERPRISE" (CBL_Edition_h st) =
  (times_defined "COUCHBASE_ENTERPRISE" st
   + if defined "COUCHBASE_ENTERPRISE" st then 0 else 1)%nat.
Proof.
  unfold CBL_Edition_h. cbv zeta.
  rewrite !times_defined_define. unfold ifndef.
  destruct (defined _ st); [|rewrite times_defined_define];
    repeat (destruct (decide _) as [?|?]; try discriminate; try congruence);
    lia.
Qed.

(** ** Version strings: the parser and the pattern agree *)

Lemma digits_from_is_Some acc s :
  is_Some (digits_from 10 is_digit acc s) <-> all_digits s = true.
Proof.
  revert acc. induction s as [|c s IH]; intros acc; cbn.
  - split; eauto.
  - destruct (is_digit c); cbn.
    + apply IH.
    + split; [intros [? ?]; discriminate|discriminate].
Qed.

Lemma decimal_is_Some s :
  is_Some (decimal s) <-> s <> EmptyString /\ all_digits s = true.
Proof.
  destruct s as [|c s].
  - cbn. split; [intros [? ?]; discriminate|intros [? _]; congruence].
  - unfold decimal. rewrite digits_from_is_Some.
    split; [intros ?; split; [discriminate|assumption]|intros [_ ?]; assumption].
Qed.

Lemma digit_value_nonneg c : is_digit c = true -> (0 <= digit_value c <= 9)%Z.
Proof.
  unfold is_digit, digit_value. intros H.
  apply andb_prop in H as [H1 H2].
  apply N.leb_le in H1, H2. lia.
Qed.

Lemma digits_from_nonneg acc s n :
  (0 <= acc)%Z -> digits_from 10 is_digit acc s = Some n -> (0 <= n)%Z.
Proof.
  revert acc. induction s as [|c s IH]; intros acc Hacc; cbn.
  - intros [= <-]. assumption.
  - destruct (is_digit c) eqn:E; [|discriminate].
    apply IH. pose proof (digit_value_nonneg c E). lia.
Qed.

Lemma decimal_nonneg s n : decimal s = Some n -> (0 <= n)%Z.
Proof.
  destruct s; [discriminate|]. unfold decimal.
  apply digits_from_nonneg. lia.
Qed.

Lemma matches_plus_digit s :
  matches (Plus Digit) s <-> s <> EmptyString /\ all_digits s = true.
Proof.
  split.
  - intros H. remember (Plus Digit) as r eqn:Hr.
    induction H as [| | |r s H _|r s1 s2 H1 _ _ IH]; try discriminate;
      injection Hr as ->.
    + inversion H; subst. cbn. split; [discriminate|].
      by rewrite andb_true_r.
    + inversion H1; subst. cbn. split; [discriminate|].
      apply andb_true_intro. split; [assumption|]. by apply IH.
  - intros [Hne Hd]. induction s as [|c s IH]; [congruence|].
    cbn in Hd. apply andb_prop in Hd as [Hc Hs].
    destruct s as [|c' s'].
    + apply matches_plus_one. by constructor.
    + change (String c (String c' s'))
        with (String c EmptyString +:+ String c' s').
      apply matches_plus_more; [by constructor|].
      apply IH; [discriminate|assumption].
Qed.

Lemma break_at_digits a r :
  all_digits a = true ->
  break_at "." (a +:+ String "." r) = (a, Some r).
Proof.
  induction a as [|c a IH]; cbn; [reflexivity|].
  intros H. apply andb_prop in H as [Hc Ha].
  destruct (Ascii.eqb c ".") eqn:E.
  - apply Ascii.eqb_eq in E. subst c. discriminate.
  - change (String c a +:+ String "." r) with (String c (a +:+ String "." r)).
    cbn [break_at]. by rewrite E, IH.
Qed.

Lemma break_at_Some sep s a r :
  break_at sep s = (a, Some r) -> s = a +:+ String sep r.
Proof.
  revert a. induction s as [|c s IH]; intros a; cbn; [discriminate|].
  destruct (Ascii.eqb c sep) eqn:E.
  - apply Ascii.eqb_eq in E. subst c. by intros [= <- <-].
  - destruct (break_at sep s) as [a' r'].
    intros [= <- ->].
    change (String c s = String c (a' +:+ String sep r)).
    f_equal. by apply IH.
Qed.

(** The strings that the pattern matches, spelled out. *)
Lemma matches_version_pattern s :
  matches version_pattern s <->
  exists a b c,
    s = a +:+ String "." (b +:+ String "." c)
    /\ is_Some (decimal a) /\ is_Some (decimal b) /\ is_Some (decimal c).
Proof.
  setoid_rewrite decimal_is_Some. setoid_rewrite <- matches_plus_digit.
  unfold version_pattern. split.
  - intros H.
    inversion H as [| |? ? a ? Ha H1| |]; subst; clear H.
    inversion H1 as [| |? ? ? ? Hd1 H2| |]; subst; clear H1.
    inversion Hd1; subst; clear Hd1.
    inversion H2 as [| |? ? b ? Hb H3| |]; subst; clear H2.
    inversion H3 as [| |? ? ? c Hd2 Hc| |]; subst; clear H3.
    inversion Hd2; subst; clear Hd2.
    exists a, b, c. cbn. auto.
  - intros (a & b & c & -> & Ha & Hb & Hc).
    apply matches_cat; [assumption|].
    apply (matches_cat _ _ (String "." EmptyString)); [constructor|].
    apply matches_cat; [assumption|].
    apply (matches_cat _ _ (String "." EmptyString)); [constructor|assumption].
Qed.

Lemma parse_version_Some s v :
  parse_version s = Some v <->
  exists a b c,
    s = a +:+ String "." (b +:+ String "." c)
    /\ decimal a = Some v.1.1 /\ decimal b = Some v.1.2
    /\ decimal c = Some v.2.
Proof.
  unfold parse_version. split.
  - destruct (break_at "." s) as [a [r|]] eqn:E1; [|discriminate].
    destruct (break_at "." r) as [b [c|]] eqn:E2; [|discriminate].
    apply break_at_Some in E1, E2. subst.
    destruct (decimal a) as [x|] eqn:Ea; [|discriminate].
    destruct (decimal b) as [y|] eqn:Eb; [|discriminate].
    destruct (decimal c) as [z|] eqn:Ec; [|discriminate].
    intros [= <-]. exists a, b, c. cbn. rewrite Ea, Eb, Ec. repeat split.
  - intros (a & b & c & -> & Ha & Hb & Hc).
    assert (Hda : all_digits a = true)
      by (apply decimal_is_Some; rewrite Ha; eauto).
    assert (Hdb : all_digits b = true)
      by (apply decimal_is_Some; rewrite Hb; eauto).
    rewrite (break_at_digits a _ Hda), (break_at_digits b _ Hdb).
    rewrite Ha, Hb, Hc. by destruct v as [[? ?] ?].
Qed.

(** A string parses as a version exactly when it matches the pattern. *)
Lemma parse_version_matches s :
  is_Some (parse_version s) <-> matches version_pattern s.
Proof.
  rewrite matches_version_pattern. split.
  - intros [v Hv]. apply parse_version_Some in Hv as (a & b & c & ? & ? & ? & ?).
    exists a, b, c. eauto.
  - intros (a & b & c & Hs & [x Hx] & [y Hy] & [z Hz]).
    exists (x, y, z). apply parse_version_Some. exists a, b, c. auto.
Qed.

Lemma parse_version_nonneg s major minor patch :
  parse_version s = Some (major, minor, patch) ->
  (0 <= major /\ 0 <= minor /\ 0 <= patch)%Z.
Proof.
  intros H. apply parse_version_Some in H as (a & b & c & _ & Ha & Hb & Hc).
  cbn in Ha, Hb, Hc. repeat split; eapply decimal_nonneg; eassumption.
Qed.

(** ** The encoding of versions *)

Lemma encode_le v1 v2 :
  below_1000 v1 -> below_1000 v2 ->
  (encode v1 <= encode v2)%Z <-> version_le v1 v2.
Proof.
  destruct v1 as [[a1 b1] c1], v2 as [[a2 b2] c2].
  unfold below_1000, encode, version_le. lia.
Qed.

Lemma decode_encode v : below_1000 v -> decode (encode v) = v.
Proof.
  destruct v as [[a b] c]. unfold below_1000, encode, decode.
  intros (Ha & Hb & Hc).
  assert (H1 : ((a * 1000000 + b * 1000 + c) / 1000000 = a)%Z).
  { symmetry. apply (Z.div_unique _ _ _ (b * 1000 + c)); lia. }
  assert (H2 : ((a * 1000000 + b * 1000 + c) / 1000 = a * 1000 + b)%Z).
  { symmetry. apply (Z.div_unique _ _ _ c); lia. }
  assert (H3 : ((a * 1000 + b) mod 1000 = b)%Z).
  { symmetry. apply (Z.mod_unique _ _ a); lia. }
  assert (H4 : ((a * 1000000 + b * 1000 + c) mod 1000 = c)%Z).
  { symmetry. apply (Z.mod_unique _ _ (a * 1000 + b)); lia. }
  by rewrite H1, H2, H3, H4.
Qed.

Lemma encode_inj v1 v2 :
  below_1000 v1 -> below_1000 v2 -> encode v1 = encode v2 -> v1 = v2.
Proof.
  intros H1 H2 He.
  rewrite <- (decode_encode v1 H1), <- (decode_encode v2 H2).
  by rewrite He.
Qed.

(** The encoding of such a version is a value of type [int]. *)
Lemma encode_int v : below_1000 v -> (0 <= encode v <= INT_MAX)%Z.
Proof.
  destruct v as [[a b] c]. unfold below_1000, encode, INT_MAX. lia.
Qed.

(** ** The properties of the build metadata *)

(** C1: whatever was defined before the header is included, the version
    string that it leaves is "3.0.1", which parses into the three integers
    3, 0 and 1, and the version number that it leaves is
    [major*1000000 + minor*1000 + patch] of these, that is 3000001. *)
Theorem version_number_encodes_version_string (st : pp_state) :
  exists vs major minor patch,
    read_VersionString (CBL_Edition_h st) = Some vs
    /\ vs = "3.0.1"
    /\ parse_version vs = Some (major, minor, patch)
    /\ read_VersionNumber (CBL_Edition_h st)
       = Some (major * 1000000 + minor * 1000 + patch)%Z
    /\ (major * 1000000 + minor * 1000 + patch = 3000001)%Z
    /\ version_number_of vs = read_VersionNumber (CBL_Edition_h st).
Proof.
  exists "3.0.1", 3%Z, 0%Z, 1%Z.
  rewrite CBL_Edition_h_stamped_shipped.
  rewrite stamped_VersionString, stamped_VersionNumber.
  repeat split.
Qed.

(** The hypothetical version string of the spec, "12.34.5", determines the
    version number 12034005. *)
Lemma version_number_of_12_34_5 : version_number_of "12.34.5" = Some 12034005%Z.
Proof. reflexivity. Qed.

(** C2: the header defines COUCHBASE_ENTERPRISE only where it is not yet
    defined: a definition made before stays as it was and no [#define] for
    the name is executed, otherwise exactly one is executed and gives the
    name an empty replacement list.  So the number of definitions made for
    the name is one after the header is included with nothing predefined,
    one after it is included with the name predefined, and does not grow
    when the header is included again; and the read of the edition flag
    yields a boolean, which is [true]. *)
Theorem edition_flag_defined_once (st : pp_state) :
  macros (CBL_Edition_h st) !! "COUCHBASE_ENTERPRISE"
  = (if defined "COUCHBASE_ENTERPRISE" st
     then macros st !! "COUCHBASE_ENTERPRISE"
     else Some (object_like []))
  /\ times_defined "COUCHBASE_ENTERPRISE" (CBL_Edition_h st)
     = (times_defined "COUCHBASE_ENTERPRISE" st
        + if defined "COUCHBASE_ENTERPRISE" st then 0 else 1)%nat
  /\ times_defined "COUCHBASE_ENTERPRISE" (CBL_Edition_h initial) = 1%nat
  /\ (forall body,
        times_defined "COUCHBASE_ENTERPRISE"
          (CBL_Edition_h (define "COUCHBASE_ENTERPRISE" body initial)) = 1%nat)
  /\ times_defined "COUCHBASE_ENTERPRISE" (CBL_Edition_h (CBL_Edition_h st))
     = times_defined "COUCHBASE_ENTERPRISE" (CBL_Edition_h st)
  /\ read_EditionFlag (CBL_Edition_h st) = true.
Proof.
  split; [rewrite CBL_Edition_h_stamped_shipped;
          apply lookup_COUCHBASE_ENTERPRISE|].
  split; [apply times_defined_CBL_Edition_h|].
  split; [reflexivity|].
  split.
  { intros body. rewrite times_defined_CBL_Edition_h.
    rewrite defined_define. reflexivity. }
  split.
  { rewrite (times_defined_CBL_Edition_h (CBL_Edition_h st)).
    fold (read_EditionFlag (CBL_Edition_h st)).
    rewrite CBL_Edition_h_stamped_shipped, stamped_EditionFlag. lia. }
  rewrite CBL_Edition_h_stamped_shipped. apply stamped_EditionFlag.
Qed.

(** C3: the version string that the header leaves is not empty and matches
    the pattern [^\d+\.\d+\.\d+$]: it parses as three integers, none of
    them negative, separated by '.'. *)
Theorem version_string_format (st : pp_state) :
  exists vs major minor patch,
    read_VersionString (CBL_Edition_h st) = Some vs
    /\ (0 < String.length vs)%nat
    /\ matches version_pattern vs
    /\ parse_version vs = Some (major, minor, patch)
    /\ (0 <= major /\ 0 <= minor /\ 0 <= patch)%Z.
Proof.
  exists "3.0.1", 3%Z, 0%Z, 1%Z.
  rewrite CBL_Edition_h_stamped_shipped, stamped_VersionString.
  split; [reflexivity|].
  split; [cbn; lia|].
  split; [apply parse_version_matches; by eexists|].
  split; [reflexivity|].
  by apply (parse_version_nonneg "3.0.1").
Qed.

(** C4: for versions whose components are all below 1000 the encoding
    preserves and reflects the order: one encoding is at most the other
    exactly when one version is at most the other by major, then minor,
    then patch.  In particular a required version is at most the shipped
    one exactly when its encoding is at most the version number of the
    header, both being values of type [int].  Comparing the version strings does not do: "10.0.0" comes
    before "9.0.0" as a string, while version 10.0.0 comes after 9.0.0, as
    the encodings say. *)
Theorem encoding_order_correct :
  (forall v1 v2 : version,
     below_1000 v1 -> below_1000 v2 ->
     (encode v1 <= encode v2)%Z <-> version_le v1 v2)
  /\ (forall (st : pp_state) (required : version),
        below_1000 required ->
        exists n,
          read_VersionNumber (CBL_Edition_h st) = Some n
          /\ ((encode required <= n)%Z <-> version_le required (3, 0, 1)%Z)
          /\ (0 <= encode required <= INT_MAX /\ 0 <= n <= INT_MAX)%Z)
  /\ (exists s1 s2 v1 v2,
        parse_version s1 = Some v1 /\ parse_version s2 = Some v2
        /\ below_1000 v1 /\ below_1000 v2
        /\ string_compare s1 s2 = Lt
        /\ (encode v2 < encode v1)%Z
        /\ version_le v2 v1).
Proof.
  split; [exact encode_le|]. split.
  - intros st required Hr. exists 3000001%Z.
    rewrite CBL_Edition_h_stamped_shipped, stamped_VersionNumber.
    split; [reflexivity|].
    split; [apply (encode_le required (3, 0, 1)%Z Hr); cbn; lia|].
    split; [by apply encode_int|unfold INT_MAX; lia].
  - exists "10.0.0", "9.0.0", (10, 0, 0)%Z, (9, 0, 0)%Z.
    repeat split; cbn; lia.
Qed.

Lemma encoding_order_correct_witness :
  (encode (3, 0, 1) <= encode (3, 1, 0))%Z <-> version_le (3, 0, 1)%Z (3, 1, 0)%Z.
Proof.
  apply (proj1 encoding_order_correct (3, 0, 1)%Z (3, 1, 0)%Z);
    unfold below_1000; lia.
Defined.

(** C5: every read is a function of the definitions that the header leaves,
    and these do not depend on what was defined before: whatever the states
    in which the header is included, each read yields the same value, the
    one written in the header; any sequence of reads, repeated ones
    included, yields these values; and including the header again changes
    neither a definition nor the value of a read. *)
Theorem reads_are_stable (st1 st2 : pp_state) (fs : list field) :
  (forall f : field,
     read f (CBL_Edition_h st1) = read f (CBL_Edition_h st2)
     /\ read f (CBL_Edition_h st1) = Some (field_of f shipped)
     /\ read f (CBL_Edition_h (CBL_Edition_h st1))
        = read f (CBL_Edition_h st1))
  /\ read_all fs (CBL_Edition_h st1)
     = map (fun f => Some (field_of f shipped)) fs
  /\ read_all (fs ++ fs)%list (CBL_Edition_h st1)
     = (read_all fs (CBL_Edition_h st1) ++ read_all fs (CBL_Edition_h st1))%list
  /\ read_metadata (CBL_Edition_h st1) = read_metadata (CBL_Edition_h st2)
  /\ macros (CBL_Edition_h (CBL_Edition_h st1)) = macros (CBL_Edition_h st1).
Proof.
  split; [intros f; by rewrite !CBL_Edition_h_read|].
  split.
  { unfold read_all. apply map_ext. intros f. apply CBL_Edition_h_read. }
  split; [apply map_app|].
  split; [by rewrite !CBL_Edition_h_metadata|].
  apply CBL_Edition_h_twice_macros.
Qed.

(** C6: the build number that the header leaves is the integer 7, which is
    not negative. *)
Theorem build_number_nonneg (st : pp_state) :
  exists n,
    read_BuildNumber (CBL_Edition_h st) = Some n /\ n = 7%Z /\ (0 <= n)%Z.
Proof.
  exists 7%Z. rewrite CBL_Edition_h_stamped_shipped, stamped_BuildNumber.
  repeat split. lia.
Qed.

(** C7: in whatever state the header is included, each of the five reads
    yields a value, the one written in the header: no read takes the branch
    on which a macro is missing, has parameters or does not stand for a
    literal.  The two integers are values of type [int], and the record
    read as a whole is the shipped one.  The header itself is accepted
    without a diagnostic, when included first and when included again. *)
Theorem reads_cannot_fail (st : pp_state) :
  read_EditionFlag (CBL_Edition_h st) = true
  /\ read_VersionString (CBL_Edition_h st) = Some "3.0.1"
  /\ read_VersionNumber (CBL_Edition_h st) = Some 3000001%Z
  /\ read_BuildNumber (CBL_Edition_h st) = Some 7%Z
  /\ read_SourceID (CBL_Edition_h st)
     = Some "2022-03-10T16:25:06 988a7ec+3da8078"
  /\ (forall f : field, is_Some (read f (CBL_Edition_h st)))
  /\ read_metadata (CBL_Edition_h st) = Some shipped
  /\ (3000001 <= INT_MAX /\ 7 <= INT_MAX)%Z
  /\ diagnostics (CBL_Edition_h initial) = []
  /\ diagnostics (CBL_Edition_h (CBL_Edition_h st))
     = diagnostics (CBL_Edition_h st).
Proof.
  rewrite CBL_Edition_h_stamped_shipped.
  rewrite stamped_EditionFlag, stamped_VersionString, stamped_VersionNumber,
    stamped_BuildNumber, stamped_SourceID.
  rewrite <- CBL_Edition_h_stamped_shipped.
  repeat (split; [reflexivity|]).
  split; [intros f; rewrite CBL_Edition_h_read; by eexists|].
  split; [apply CBL_Edition_h_metadata|].
  split; [unfold INT_MAX; lia|].
  split; [apply CBL_Edition_h_diagnostics_initial|].
  apply CBL_Edition_h_twice_diagnostics.
Qed.

(** C8: the source identifier that the header leaves is the text written in
    the header, which has 35 characters.  The header treats it as an opaque
    token: with any text stamped in its place, the read of the source
    identifier yields that text as it is, every other read yields what it
    yields for the header as shipped, and the definitions of all other
    names and the [#define]s executed are the same. *)
Theorem source_id_opaque (st : pp_state) :
  (exists sid,
     read_SourceID (CBL_Edition_h st) = Some sid
     /\ sid = "2022-03-10T16:25:06 988a7ec+3da8078"
     /\ String.length sid = 35%nat
     /\ (0 < String.length sid)%nat)
  /\ (forall text : string,
        read_SourceID (CBL_Edition_h_stamped text st) = Some text)
  /\ (forall (text : string) (f : field),
        read f (CBL_Edition_h_stamped text st)
        = match f with
          | FSourceID => Some (VText text)
          | _ => read f (CBL_Edition_h st)
          end)
  /\ (forall text : string,
        delete "CBLITE_SOURCE_ID" (macros (CBL_Edition_h_stamped text st))
        = delete "CBLITE_SOURCE_ID" (macros (CBL_Edition_h st))
        /\ defines (CBL_Edition_h_stamped text st)
           = defines (CBL_Edition_h st)).
Proof.
  split.
  { eexists. rewrite CBL_Edition_h_stamped_shipped, stamped_SourceID.
    repeat split. cbn. lia. }
  split; [intros text; apply stamped_SourceID|].
  split.
  { intros text f. rewrite CBL_Edition_h_stamped_shipped.
    destruct f; unfold read;
      rewrite ?stamped_EditionFlag, ?stamped_VersionString,
        ?stamped_VersionNumber, ?stamped_BuildNumber, ?stamped_SourceID;
      reflexivity. }
  intros text. split; [|reflexivity].
  unfold CBL_Edition_h, CBL_Edition_h_stamped. cbv zeta.
  cbn [macros define]. by rewrite !delete_insert_eq.
Qed.

(** C9: after the header is included COUCHBASE_ENTERPRISE is defined, in
    whatever state the header is included: where nothing is predefined the
    flag is absent before and present after, where the build predefined it
    (with any replacement list) it is present after, and so the read of the
    edition flag never yields [false]. *)
Theorem edition_flag_always_defined (st : pp_state) :
  read_EditionFlag (CBL_Edition_h st) = true
  /\ is_Some (macros (CBL_Edition_h st) !! "COUCHBASE_ENTERPRISE")
  /\ negb (read_EditionFlag (CBL_Edition_h st)) = false
  /\ read_EditionFlag initial = false
  /\ read_EditionFlag (CBL_Edition_h initial) = true
  /\ (forall body,
        read_EditionFlag
          (CBL_Edition_h (define "COUCHBASE_ENTERPRISE" body initial)) = true).
Proof.
  assert (H : forall s, read_EditionFlag (CBL_Edition_h s) = true).
  { intros s. rewrite CBL_Edition_h_stamped_shipped.
    apply stamped_EditionFlag. }
  split; [apply H|].
  split.
  { specialize (H st). unfold read_EditionFlag, defined in H.
    by apply bool_decide_eq_true in H. }
  split; [by rewrite H|].
  split; [reflexivity|].
  split; [apply H|intros body; apply H].
Qed.

(** C10: decoding the version number of the header as
    [(n / 1000000, (n / 1000) mod 1000, n mod 1000)] yields (3, 0, 1), the
    three components that its version string parses into; and for all
    components below 1000 decoding undoes the encoding, so that the
    encoding is injective. *)
Theorem version_number_round_trips :
  (forall st : pp_state,
     exists n vs,
       read_VersionNumber (CBL_Edition_h st) = Some n
       /\ n = 3000001%Z
       /\ decode n = (3, 0, 1)%Z
       /\ read_VersionString (CBL_Edition_h st) = Some vs
       /\ parse_version vs = Some (decode n)
       /\ encode (decode n) = n)
  /\ (forall v : version, below_1000 v -> decode (encode v) = v)
  /\ (forall v1 v2 : version,
        below_1000 v1 -> below_1000 v2 -> encode v1 = encode v2 -> v1 = v2).
Proof.
  split.
  { intros st. exists 3000001%Z, "3.0.1".
    rewrite CBL_Edition_h_stamped_shipped.
    rewrite stamped_VersionNumber, stamped_VersionString.
    repeat split. }
  split; [exact decode_encode|exact encode_inj].
Qed.

Lemma version_number_round_trips_witness :
  decode (encode (3, 0, 1)%Z) = (3, 0, 1)%Z.
Proof.
  apply (proj1 (proj2 version_number_round_trips) (3, 0, 1)%Z).
  unfold below_1000. lia.
Defined.

(** ** The header among other directives: what inclusion does to the rest *)

Lemma CBL_Edition_h_lookup_other name st :
  name ∉ header_names ->
  macros (CBL_Edition_h st) !! name = macros st !! name.
Proof. rewrite CBL_Edition_h_stamped_shipped. apply lookup_other. Qed.

Lemma CBL_Edition_h_lookup_constant name st :
  name ∈ ["CBLITE_VERSION"; "CBLITE_VERSION_NUMBER"; "CBLITE_BUILD_NUMBER";
          "CBLITE_SOURCE_ID"] ->
  macros (CBL_Edition_h st) !! name = header_constants !! name.
Proof.
  intros Hin. rewrite CBL_Edition_h_stamped_shipped.
  repeat (apply elem_of_cons in Hin as [->|Hin]).
  - by rewrite lookup_CBLITE_VERSION.
  - by rewrite lookup_CBLITE_VERSION_NUMBER.
  - by rewrite lookup_CBLITE_BUILD_NUMBER.
  - by rewrite lookup_CBLITE_SOURCE_ID.
  - by apply elem_of_nil in Hin.
Qed.

Lemma defined_false name st : defined name st = false -> macros st !! name = None.
Proof.
  unfold defined. intros H. apply bool_decide_eq_false in H.
  destruct (macros st !! name); [|reflexivity]. exfalso. eauto.
Qed.

Lemma defined_true name st :
  defined name st = true -> is_Some (macros st !! name).
Proof. unfold defined. apply bool_decide_eq_true. Qed.



Lemma lookup_header_constants_None name :
  name ∉ ["CBLITE_VERSION"; "CBLITE_VERSION_NUMBER"; "CBLITE_BUILD_NUMBER";
          "CBLITE_SOURCE_ID"] ->
  header_constants !! name = None.
Proof.
  intros Hname. unfold header_constants.
  rewrite !lookup_insert_ne by (intros <-; apply Hname; set_solver).
  apply lookup_empty.
Qed.

(** X2: the table that the header leaves is the union, with priority from
    left to right, of the header's four constants, the table that it found,
    and an empty definition of COUCHBASE_ENTERPRISE: the constants override
    whatever stood for their names, while the edition flag yields to a
    definition made before. *)
Theorem header_table_is_prioritised_union (st : pp_state) :
  macros (CBL_Edition_h st)
  = header_constants
    ∪ (macros st ∪ {["COUCHBASE_ENTERPRISE" := object_like []]}).
Proof.
  apply map_eq. intros name.
  destruct (decide (name ∈ ["CBLITE_VERSION"; "CBLITE_VERSION_NUMBER";
    "CBLITE_BUILD_NUMBER"; "CBLITE_SOURCE_ID"])) as [Hin|Hout].
  - rewrite (CBL_Edition_h_lookup_constant name st Hin).
    repeat (apply elem_of_cons in Hin as [->|Hin]);
      try (symmetry; by apply lookup_union_Some_l).
    by apply elem_of_nil in Hin.
  - rewrite lookup_union_r by (by apply lookup_header_constants_None).
    destruct (decide (name = "COUCHBASE_ENTERPRISE")) as [->|Hne].
    + rewrite CBL_Edition_h_stamped_shipped, lookup_COUCHBASE_ENTERPRISE.
      destruct (defined _ st) eqn:E.
      * apply defined_true in E as [m Hm]. rewrite Hm. symmetry.
        by apply lookup_union_Some_l.
      * apply defined_false in E. rewrite lookup_union_r by assumption.
        by rewrite lookup_singleton_eq.
    + rewrite CBL_Edition_h_lookup_other
        by (intros [?|?]%elem_of_cons; done).
      rewrite lookup_union_l; [reflexivity|].
      by apply lookup_singleton_ne.
Qed.

(** X3: the header undefines nothing and defines nothing but its five
    names: the names defined after it are those defined before it together
    with these five. *)
Theorem header_defined_names (st : pp_state) :
  dom (macros (CBL_Edition_h st))
  = dom (macros st) ∪ list_to_set header_names.
Proof.
  unfold CBL_Edition_h, ifndef. cbv zeta.
  destruct (defined _ st) eqn:E; cbn [macros define];
    rewrite !dom_insert_L; unfold header_names; cbn [list_to_set].
  - apply defined_true in E. apply elem_of_dom in E.
    apply set_eq. intros name. rewrite !elem_of_union, !elem_of_singleton.
    rewrite elem_of_empty.
    split; [tauto|]. intros [?|[->|?]]; tauto.
  - apply set_eq. intros name. rewrite !elem_of_union, !elem_of_singleton.
    rewrite elem_of_empty. tauto.
Qed.

(** ** Diagnostics of the header *)

Lemma diagnostics_define_redefinition name body st :
  diagnostics (define name body st)
  = (redefinition name body st ++ diagnostics st)%list.
Proof.
  unfold redefinition, conflicts. cbn [diagnostics define].
  destruct (macros st !! name) as [old|]; [|reflexivity].
  destruct (decide (old = object_like body)) as [->|Hne].
  - by rewrite bool_decide_eq_false_2 by (intros H; by apply H).
  - by rewrite bool_decide_eq_true_2.
Qed.

Lemma redefinition_ext name body s1 s2 :
  macros s1 !! name = macros s2 !! name ->
  redefinition name body s1 = redefinition name body s2.
Proof. unfold redefinition, conflicts. by intros ->. Qed.

Lemma redefinition_nil name body st :
  redefinition name body st = [] <-> compatible name body st.
Proof.
  unfold redefinition, conflicts, compatible.
  destruct (macros st !! name) as [old|]; [|by split; [left|]].
  destruct (decide (old = object_like body)) as [->|Hne].
  - rewrite bool_decide_eq_false_2 by (intros H; by apply H).
    by split; [right|].
  - rewrite bool_decide_eq_true_2 by assumption.
    split; [discriminate|]. intros [?|[= ?]]; [discriminate|contradiction].
Qed.

Lemma redefinition_length name body st :
  (length (redefinition name body st) <= 1)%nat.
Proof. unfold redefinition. destruct (conflicts _ _ _); cbn; lia. Qed.

Lemma lookup_ifndef_ne name other body st :
  other <> name ->
  macros (ifndef other (define other body) st) !! name = macros st !! name.
Proof.
  intros Hne. unfold ifndef. destruct (defined other st); [reflexivity|].
  by apply lookup_define_ne.
Qed.

Lemma CBL_Edition_h_redefinitions st :
  diagnostics (CBL_Edition_h st)
  = (redefinition "CBLITE_SOURCE_ID"
       [StringLiteral "2022-03-10T16:25:06 988a7ec+3da8078"] st
     ++ redefinition "CBLITE_BUILD_NUMBER" [PPNumber "7"] st
     ++ redefinition "CBLITE_VERSION_NUMBER" [PPNumber "3000001"] st
     ++ redefinition "CBLITE_VERSION" [StringLiteral "3.0.1"] st
     ++ diagnostics st)%list.
Proof.
  unfold CBL_Edition_h. cbv zeta.
  rewrite !diagnostics_define_redefinition, diagnostics_ifndef_define.
  repeat (f_equal; [apply redefinition_ext;
    rewrite ?lookup_define_ne by discriminate;
    by apply lookup_ifndef_ne|]).
  f_equal. apply redefinition_ext. by apply lookup_ifndef_ne.
Qed.

(** X4: the header raises a diagnostic for exactly those of its four
    constants that stood for something else before, the latest first, and
    never for COUCHBASE_ENTERPRISE.  So it adds at most four diagnostics,
    and it adds none exactly when each of the four names is free or already
    defined as the header defines it. *)
Theorem header_diagnoses_its_conflicts (st : pp_state) :
  diagnostics (CBL_Edition_h st)
  = (redefinition "CBLITE_SOURCE_ID"
       [StringLiteral "2022-03-10T16:25:06 988a7ec+3da8078"] st
     ++ redefinition "CBLITE_BUILD_NUMBER" [PPNumber "7"] st
     ++ redefinition "CBLITE_VERSION_NUMBER" [PPNumber "3000001"] st
     ++ redefinition "CBLITE_VERSION" [StringLiteral "3.0.1"] st
     ++ diagnostics st)%list
  /\ (length (diagnostics (CBL_Edition_h st))
      <= 4 + length (diagnostics st))%nat
  /\ (diagnostics (CBL_Edition_h st) = diagnostics st
      <-> compatible "CBLITE_VERSION" [StringLiteral "3.0.1"] st
          /\ compatible "CBLITE_VERSION_NUMBER" [PPNumber "3000001"] st
          /\ compatible "CBLITE_BUILD_NUMBER" [PPNumber "7"] st
          /\ compatible "CBLITE_SOURCE_ID"
               [StringLiteral "2022-03-10T16:25:06 988a7ec+3da8078"] st).
Proof.
  split; [apply CBL_Edition_h_redefinitions|].
  rewrite CBL_Edition_h_redefinitions.
  pose proof (redefinition_length "CBLITE_SOURCE_ID"
    [StringLiteral "2022-03-10T16:25:06 988a7ec+3da8078"] st) as Hs.
  pose proof (redefinition_length "CBLITE_BUILD_NUMBER" [PPNumber "7"] st)
    as Hb.
  pose proof (redefinition_length "CBLITE_VERSION_NUMBER"
    [PPNumber "3000001"] st) as Hn.
  pose proof (redefinition_length "CBLITE_VERSION" [StringLiteral "3.0.1"] st)
    as Hv.
  split; [rewrite !length_app; lia|].
  rewrite <- !redefinition_nil. split.
  - intros H. apply (f_equal length) in H. rewrite !length_app in H.
    repeat split; apply length_zero_iff_nil; lia.
  - intros (-> & -> & -> & ->). reflexivity.
Qed.

(** ** The header and other definitions *)

(** What the header leaves for a name depends on what stood for that name
    before, and on nothing else. *)
Lemma CBL_Edition_h_lookup_ext s1 s2 name :
  macros s1 !! name = macros s2 !! name ->
  macros (CBL_Edition_h s1) !! name = macros (CBL_Edition_h s2) !! name.
Proof.
  intros H.
  destruct (decide (name ∈ header_names)) as [Hin|Hout].
  - apply elem_of_cons in Hin as [->|Hin].
    + rewrite CBL_Edition_h_stamped_shipped, !lookup_COUCHBASE_ENTERPRISE.
      unfold defined. by rewrite H.
    + by rewrite !CBL_Edition_h_lookup_constant.
  - by rewrite !CBL_Edition_h_lookup_other.
Qed.

(** X5: the header commutes with the definition of any macro that is not
    one of its five names: defining the macro before or after the header is
    included gives the same table, and the same diagnostics up to their
    order. *)
Theorem header_commutes_with_other_define
    (st : pp_state) (name : string) (body : list pp_token) :
  name ∉ header_names ->
  macros (CBL_Edition_h (define name body st))
  = macros (define name body (CBL_Edition_h st))
  /\ diagnostics (CBL_Edition_h (define name body st))
     ≡ₚ diagnostics (define name body (CBL_Edition_h st)).
Proof.
  intros Hname. split.
  - apply map_eq. intros i. destruct (decide (name = i)) as [<-|Hne].
    + rewrite CBL_Edition_h_lookup_other by assumption.
      by rewrite !lookup_define_eq.
    + rewrite (lookup_define_ne _ name body i Hne).
      apply CBL_Edition_h_lookup_ext. by apply lookup_define_ne.
  - rewrite CBL_Edition_h_redefinitions.
    rewrite !diagnostics_define_redefinition, CBL_Edition_h_redefinitions.
    rewrite (redefinition_ext name body (CBL_Edition_h st) st)
      by (by apply CBL_Edition_h_lookup_other).
    rewrite 4!(redefinition_ext _ _ (define name body st) st)
      by (apply lookup_define_ne; intros ->; apply Hname;
          unfold header_names; rewrite !elem_of_cons; tauto).
    rewrite !(assoc_L (++)). apply Permutation_app_tail.
    rewrite <- !(assoc_L (++)).
    rewrite (Permutation_app_comm (redefinition name body st)).
    by rewrite <- !(assoc_L (++)).
Qed.

Lemma header_commutes_with_other_define_witness :
  macros (CBL_Edition_h (define "MY_APP_VERSION" [PPNumber "42"] initial))
  = macros (define "MY_APP_VERSION" [PPNumber "42"] (CBL_Edition_h initial)).
Proof.
  apply (header_commutes_with_other_define initial "MY_APP_VERSION"
           [PPNumber "42"]).
  unfold header_names. intros Hin.
  repeat (apply elem_of_cons in Hin as [Hin|Hin]; [discriminate|]).
  by apply elem_of_nil in Hin.
Defined.

(** ** Repeated inclusion *)

Lemma CBL_Edition_h_macros_ext s1 s2 :
  macros s1 = macros s2 -> macros (CBL_Edition_h s1) = macros (CBL_Edition_h s2).
Proof.
  intros H. apply map_eq. intros name.
  apply CBL_Edition_h_lookup_ext. by rewrite H.
Qed.

Lemma defined_ext name s1 s2 :
  macros s1 = macros s2 -> defined name s1 = defined name s2.
Proof. unfold defined. by intros ->. Qed.

Lemma CBL_Edition_h_diagnostics_again s st :
  macros s = macros (CBL_Edition_h st) ->
  diagnostics (CBL_Edition_h s) = diagnostics s.
Proof.
  intros H. apply CBL_Edition_h_diagnostics; right; rewrite H;
    by apply CBL_Edition_h_lookup_constant; rewrite !elem_of_cons; tauto.
Qed.

Lemma CBL_Edition_h_defines_length st :
  length (defines (CBL_Edition_h st))
  = (length (defines st)
     + if defined "COUCHBASE_ENTERPRISE" st then 4 else 5)%nat.
Proof.
  unfold CBL_Edition_h, ifndef. cbv zeta.
  destruct (defined _ st); cbn [defines define length]; lia.
Qed.

Lemma include_times_S n st :
  include_times (S n) st = CBL_Edition_h (include_times n st).
Proof. reflexivity. Qed.

Lemma include_times_macros n st :
  macros (include_times (S n) st) = macros (CBL_Edition_h st).
Proof.
  induction n as [|n IH]; [reflexivity|].
  rewrite include_times_S, (CBL_Edition_h_macros_ext _ _ IH).
  apply CBL_Edition_h_twice_macros.
Qed.

(** X6: the header has no include guard and needs none.  Included any
    number of times in a row, it leaves the table of macros and the
    diagnostics of the first inclusion; the guarded definition of
    COUCHBASE_ENTERPRISE is not executed again, and each further inclusion
    executes exactly the four unguarded [#define]s. *)
Theorem repeated_inclusion (n : nat) (st : pp_state) :
  macros (include_times (S n) st) = macros (CBL_Edition_h st)
  /\ diagnostics (include_times (S n) st) = diagnostics (CBL_Edition_h st)
  /\ times_defined "COUCHBASE_ENTERPRISE" (include_times (S n) st)
     = times_defined "COUCHBASE_ENTERPRISE" (CBL_Edition_h st)
  /\ length (defines (include_times (S n) st))
     = (length (defines (CBL_Edition_h st)) + 4 * n)%nat.
Proof.
  split; [apply include_times_macros|].
  assert (Hflag : forall k,
    defined "COUCHBASE_ENTERPRISE" (include_times (S k) st) = true).
  { intros k.
    rewrite (defined_ext _ _ _ (include_times_macros k st)).
    fold (read_EditionFlag (CBL_Edition_h st)).
    rewrite CBL_Edition_h_stamped_shipped. apply stamped_EditionFlag. }
  induction n as [|n (IHd & IHt & IHl)]; [by rewrite Nat.mul_0_r, Nat.add_0_r|].
  rewrite (include_times_S (S n)).
  split; [|split].
  - rewrite (CBL_Edition_h_diagnostics_again _ st (include_times_macros n st)).
    exact IHd.
  - rewrite times_defined_CBL_Edition_h, Hflag, IHt. lia.
  - rewrite CBL_Edition_h_defines_length, Hflag, IHl. lia.
Qed.

(** ** The value of the edition flag *)



(** ** Definitions made after the header *)


